(** * DTA [Link]: a shallow embedding of [src/dta/Link.py]

    A link of a transportation network joins two nodes.  The Python class
    keeps four instance attributes ([_id], [_label], [_startNode],
    [_endNode]) and derives lengths and angles from the positions of its
    two nodes.

    Modelling choices, all visible in the definitions below:
    - a Python object is its attribute dictionary, a [gmap string pyval];
      reading a missing attribute raises [AttributeError];
    - a method that can raise returns a [result]; a method that assigns
      attributes takes the object and returns the updated object;
    - nodes are objects owned by the network: a link holds references
      ([node_ref]) into a node store, so two references are the same node
      exactly when they are the same reference;
    - a Python float is an IEEE 754 binary64 number, Rocq's primitive
      [float]: [+], [-], [*], [/] and the square root round to nearest
      even, overflow to an infinity and propagate NaN as the hardware
      does.  The two functions that CPython takes from the C library,
      [acos] and [pow], are a parameter ([Libm.t]); the checks that
      [math.acos], [math.sqrt] and [**] put around them are modelled. *)

From Stdlib Require Import ZArith String List DecimalString Floats.
From stdpp Require Import gmap strings.

(** ** The fragment of the Python runtime that [Link] relies on *)

Module Py.

(** Exceptions that the modelled code can raise. [DtaError] is the
    package's own error class and carries its message. *)
Inductive exn : Type :=
| DtaError (msg : string)
| TypeError
| AttributeError (attr : string)
| ValueError
| ZeroDivisionError
| OverflowError.

Inductive result (A : Type) : Type :=
| Ok (a : A)
| Raise (e : exn).
Arguments Ok {A} a.
Arguments Raise {A} e.

#[export] Instance result_ret : MRet result := fun A a => Ok a.
#[export] Instance result_bind : MBind result := fun A B f m =>
  match m with
  | Ok a => f a
  | Raise e => Raise e
  end.

(** References to [Node] instances. *)
Definition node_ref : Type := positive.

(** The values a caller can pass around. A tuple of integers stands for a
    plain coordinate pair; [PyNode r] is a reference to a [Node] instance. *)
Inductive pyval : Type :=
| PyNone
| PyBool (b : bool)
| PyInt (z : Z)
| PyStr (s : string)
| PyIntTuple (l : list Z)
| PyNode (r : node_ref).

(** An object is its instance dictionary. *)
Abbreviation obj := (gmap string pyval).

Definition getattr (o : obj) (a : string) : result pyval :=
  match o !! a with
  | Some v => Ok v
  | None => Raise (AttributeError a)
  end.

Definition setattr (o : obj) (a : string) (v : pyval) : obj := <[a := v]> o.

(** Truth value of an object, as tested by [if label:]. *)
Definition truthy (v : pyval) : bool :=
  match v with
  | PyNone => false
  | PyBool b => b
  | PyInt z => negb (z =? 0)%Z
  | PyStr s => negb (String.eqb s "")
  | PyIntTuple l => match l with [] => false | _ => true end
  | PyNode _ => true
  end.

(** [==] on values: numbers compare by value ([True == 1]), strings and
    tuples structurally, nodes by identity. *)
Definition eqb (v w : pyval) : bool :=
  match v, w with
  | PyNone, PyNone => true
  | PyBool a, PyBool b => Bool.eqb a b
  | PyBool a, PyInt z | PyInt z, PyBool a => (Z.b2z a =? z)%Z
  | PyInt a, PyInt b => (a =? b)%Z
  | PyStr a, PyStr b => String.eqb a b
  | PyIntTuple a, PyIntTuple b => bool_decide (a = b)
  | PyNode a, PyNode b => (a =? b)%positive
  | _, _ => false
  end.

(** [==] on tuples: same length and equal items, position by position. *)
Fixpoint tuple_eqb (t u : list pyval) : bool :=
  match t, u with
  | [], [] => true
  | v :: t', w :: u' => eqb v w && tuple_eqb t' u'
  | _, _ => false
  end.

Definition str_of_Z (z : Z) : string := NilZero.string_of_int (Z.to_int z).

Fixpoint join_Z (l : list Z) : string :=
  match l with
  | [] => ""
  | [z] => str_of_Z z
  | z :: l' => str_of_Z z ++ ", " ++ join_Z l'
  end.

(** [str(v)]. The text of a node object is never asked for by [Link]
    (only rejected, non-node arguments are printed); it is left generic. *)
Definition str (v : pyval) : string :=
  match v with
  | PyNone => "None"
  | PyBool true => "True"
  | PyBool false => "False"
  | PyInt z => str_of_Z z
  | PyStr s => s
  | PyIntTuple [z] => "(" ++ str_of_Z z ++ ",)"
  | PyIntTuple l => "(" ++ join_Z l ++ ")"
  | PyNode _ => "<dta.Node.Node object>"
  end.

(** The [%d] conversion: integers (and booleans) only. *)
Definition fmt_d (v : pyval) : result string :=
  match v with
  | PyInt z => Ok (str_of_Z z)
  | PyBool b => Ok (str_of_Z (Z.b2z b))
  | _ => Raise TypeError
  end.

(** Calling a one-argument method through its class: the receiver has to
    be supplied, any other number of arguments is a [TypeError]. *)
Definition call_unbound {A : Type} (f : obj -> result A) (args : list obj)
  : result A :=
  match args with
  | [self] => f self
  | _ => Raise TypeError
  end.

(** *** Floats *)

(** The C library functions behind [math.acos] and [**]. They differ in
    the last bit from one platform to the next, so they are a parameter. *)
Module Libm.
Record t : Type := mk { acos : float -> float; pow : float -> float -> float }.
End Libm.

(** What a geometric method can return: the [int] of [return 0], or a
    float. *)
Inductive number : Type :=
| PyIntNum (z : Z)
| PyFloat (f : float).

Section Floats.
Local Open Scope float_scope.

(** [math.pi], the double nearest to the number pi. *)
Definition math_pi : float := 0x1.921fb54442d18p+1.

(** [float(z)] for an integer below 2^63 in absolute value. *)
Definition float_of_int (z : Z) : float :=
  match z with
  | Z0 => 0
  | Zpos _ => of_uint63 (Uint63.of_Z z)
  | Zneg _ => - of_uint63 (Uint63.of_Z (- z))
  end.

(** [x / y] on floats: a zero divisor, of either sign, raises. *)
Definition float_div (x y : float) : result float :=
  if y =? 0 then Raise ZeroDivisionError else Ok (x / y).

(** [n / y] with a float divisor: an [int] is converted first. *)
Definition number_div (n : number) (y : float) : result float :=
  match n with
  | PyIntNum z => float_div (float_of_int z) y
  | PyFloat f => float_div f y
  end.

(** The wrapper that CPython's [math] module puts around a C function:
    a NaN result for an argument that is not NaN, or an infinite result
    for a finite argument, is a [ValueError] (math domain error). The C
    variable [errno] is not modelled: neither [sqrt] nor [acos] sets it
    together with a finite result. *)
Definition math_1 (func : float -> float) (x : float) : result float :=
  let r := func x in
  if is_nan r && negb (is_nan x) then Raise ValueError
  else if is_infinity r && is_finite x then Raise ValueError
  else Ok r.

Definition math_sqrt (x : float) : result float := math_1 PrimFloat.sqrt x.

Definition math_acos (m : Libm.t) (x : float) : result float :=
  math_1 (Libm.acos m) x.

(** [x ** 2] on a float, after CPython's [float_pow] with the exponent
    2.0: NaN, the infinities, the zeros and 1.0 are answered without the C
    library; otherwise [pow] is called on the absolute value, and an
    infinite result is an [OverflowError] ([errno] is taken to be set
    by [pow] on overflow only). *)
Definition float_pow_2 (m : Libm.t) (x : float) : result float :=
  if is_nan x then Ok x
  else if is_infinity x then Ok (abs x)
  else if x =? 0 then Ok 0
  else
    let iv := if x <? 0 then - x else x in
    if iv =? 1 then Ok 1
    else
      let ix := Libm.pow m iv 2 in
      if is_infinity ix then Raise OverflowError else Ok ix.

End Floats.

End Py.
Import Py.

(** ** Node *)

Module Node.

(** Modelled from the spec: the [Node] class ([dta/Node.py]) is not part of
    the sources.  The spec gives a node an integer identity and a planar
    position, read through [getId], [getX] and [getY]; the two coordinates
    are Python floats. A node is owned by the network, which is the store
    below. *)
Record t : Type := mk { id : Z; x : float; y : float }.

Abbreviation store := (node_ref -> t).

Section Accessors.
Context (nodes : store).

(** [isinstance(v, Node)] *)
Definition isinstance (v : pyval) : bool :=
  match v with
  | PyNode _ => true
  | _ => false
  end.

(** [v.getX()], [v.getY()], [v.getId()]: values that are not nodes have no
    such method. *)
Definition getX (v : pyval) : result float :=
  match v with
  | PyNode r => Ok (x (nodes r))
  | _ => Raise (AttributeError "getX")
  end.

Definition getY (v : pyval) : result float :=
  match v with
  | PyNode r => Ok (y (nodes r))
  | _ => Raise (AttributeError "getY")
  end.

Definition getId (v : pyval) : result Z :=
  match v with
  | PyNode r => Ok (id (nodes r))
  | _ => Raise (AttributeError "getId")
  end.

End Accessors.
End Node.

(** ** Link *)

Module Link.

Definition MIN_LENGTH_IN_MILES : float := 0x1.0624dd2f1a9fcp-8%float.

Definition DEFAULT_LABEL : pyval := PyStr "".

(** [__init__]: returns the object as the body leaves it, together with
    the outcome. The assignments of [_id] and [_label] come first, the two
    [isinstance] tests next, the endpoint assignments last. *)
Definition __init__ (self : obj) (id_ startNode endNode label : pyval)
  : obj * result unit :=
  let self := setattr self "_id" id_ in
  let self :=
    if truthy label then setattr self "_label" label
    else setattr self "_label" DEFAULT_LABEL in
  if negb (Node.isinstance startNode) then
    (self, Raise (DtaError
       ("Initializing Link with non-Node startNode: " ++ str startNode)))
  else if negb (Node.isinstance endNode) then
    (self, Raise (DtaError
       ("Initializing Link with non-Node endNode: " ++ str endNode)))
  else
    let self := setattr self "_startNode" startNode in
    let self := setattr self "_endNode" endNode in
    (self, Ok tt).

(** The call [Link(id_, startNode, endNode, label)]: a fresh object is
    initialised; the caller gets it only if [__init__] returns. *)
Definition new (id_ startNode endNode label : pyval) : result obj :=
  match __init__ ∅ id_ startNode endNode label with
  | (self, Ok _) => Ok self
  | (_, Raise e) => Raise e
  end.

Definition getStartNode (self : obj) : result pyval :=
  getattr self "_startNode".

Definition getEndNode (self : obj) : result pyval :=
  getattr self "_endNode".

Definition getId (self : obj) : result pyval := getattr self "_id".

Definition setLabel (self : obj) (label : pyval) : obj :=
  setattr self "_label" label.

Definition getLabel (self : obj) : result pyval := getattr self "_label".

(** The seven attributes read by [hasSameAttributes], in order. *)
Definition getattrs (link : obj) : result (list pyval) :=
  a1 ← getattr link "_facilityType";
  a2 ← getattr link "_freeflowSpeed";
  a3 ← getattr link "_effectiveLengthFactor";
  a4 ← getattr link "_responseTimeFactor";
  a5 ← getattr link "_numLanes";
  a6 ← getattr link "_roundAbout";
  a7 ← getattr link "_level";
  mret [a1; a2; a3; a4; a5; a6; a7].

Definition hasSameAttributes (self other : obj) : result bool :=
  attr1 ← getattrs self;
  attr2 ← getattrs other;
  if tuple_eqb attr1 attr2 then mret true else mret false.

Section Methods.
Context (m : Libm.t) (nodes : Node.store).
Local Open Scope float_scope.

Definition getEuclideanLengthInMiles (self : obj) : result float :=
  ex ← getEndNode self ≫= Node.getX nodes;
  sx ← getStartNode self ≫= Node.getX nodes;
  let dx1 := ex - sx in
  ey ← getEndNode self ≫= Node.getY nodes;
  sy ← getStartNode self ≫= Node.getY nodes;
  let dy1 := ey - sy in
  dx2 ← float_pow_2 m dx1;
  dy2 ← float_pow_2 m dy1;
  d ← math_sqrt (dx2 + dy2);
  float_div d 5280.

Definition euclideanLength (self : obj) : result float :=
  sx ← getattr self "_startNode" ≫= Node.getX nodes;
  ex ← getattr self "_endNode" ≫= Node.getX nodes;
  sx' ← getattr self "_startNode" ≫= Node.getX nodes;
  ex' ← getattr self "_endNode" ≫= Node.getX nodes;
  sy ← getattr self "_startNode" ≫= Node.getY nodes;
  ey ← getattr self "_endNode" ≫= Node.getY nodes;
  sy' ← getattr self "_startNode" ≫= Node.getY nodes;
  ey' ← getattr self "_endNode" ≫= Node.getY nodes;
  math_sqrt ((sx - ex) * (sx' - ex') + (sy - ey) * (sy' - ey')).

Definition getReferenceAngle (self : obj) : result number :=
  len ← euclideanLength self;
  if len =? 0 then mret (PyIntNum 0) else
  ex ← getattr self "_endNode" ≫= Node.getX nodes;
  sx ← getattr self "_startNode" ≫= Node.getX nodes;
  len' ← euclideanLength self;
  q ← float_div (ex - sx) len';
  angle ← math_acos m q;
  if 0 <? angle then
    ey ← getattr self "_endNode" ≫= Node.getY nodes;
    sy ← getattr self "_startNode" ≫= Node.getY nodes;
    if sy <? ey then mret (PyFloat (2 * math_pi - angle))
    else mret (PyFloat angle)
  else mret (PyFloat angle).

Definition getReferenceAngleInDegrees (self : obj) : result float :=
  a ← getReferenceAngle self;
  q ← number_div a math_pi;
  mret (q * 180).

(** The last branch builds its message from [Link.getId()], a call through
    the class with no receiver, and [node.getId()]. *)
Definition getOtherEnd (self : obj) (node : pyval) : result pyval :=
  s ← getattr self "_startNode";
  if eqb s node then getattr self "_endNode" else
  e ← getattr self "_endNode";
  if eqb e node then getattr self "_startNode" else
  lid ← call_unbound getId [] ≫= fmt_d;
  nid ← Node.getId nodes node;
  Raise (DtaError
    ("Link " ++ lid ++ " does not have end node " ++ str_of_Z nid)).

Definition getIid (self : obj) : result (Z * Z) :=
  a ← getStartNode self ≫= Node.getId nodes;
  b ← getEndNode self ≫= Node.getId nodes;
  mret (a, b).

Definition getStartNodeId (self : obj) : result Z :=
  getStartNode self ≫= Node.getId nodes.

Definition getEndNodeId (self : obj) : result Z :=
  getEndNode self ≫= Node.getId nodes.

End Methods.
End Link.

(** ** Objects the statements talk about *)

(** [link_ends o s e]: the object holds the node references [s] and [e] as
    its start and end node. Every object that [Link(...)] returns satisfies
    it, and [setLabel] keeps it. *)
Definition link_ends (o : obj) (s e : node_ref) : Prop :=
  o !! "_startNode" = Some (PyNode s) ∧ o !! "_endNode" = Some (PyNode e).

(** The names read by [Link.getattrs], in the order of the tuple. *)
Definition attr_names : list string :=
  ["_facilityType"; "_freeflowSpeed"; "_effectiveLengthFactor";
   "_responseTimeFactor"; "_numLanes"; "_roundAbout"; "_level"].

(** The attributes that the base constructor assigns. *)
Definition base_names : list string :=
  ["_id"; "_label"; "_startNode"; "_endNode"].

Definition has_attrs (o : obj) : Prop :=
  ∀ n, n ∈ attr_names → is_Some (o !! n).

(** A store with node [1] at [p] and every other node at [q]. *)
Definition two_nodes (p q : Node.t) : Node.store :=
  fun r => match r with 1%positive => p | _ => q end.

(** The object returned by [Link(12, n1, n2, None)]. *)
Definition link_1_2 : obj :=
  Link.setLabel
    (<["_endNode" := PyNode 2%positive]> (<["_startNode" := PyNode 1%positive]>
       (<["_id" := PyInt 12]> ∅))) (PyStr "").

(** An object of a richer class: a link with the seven attributes. *)
Definition road_link (lanes : Z) (o : obj) : obj :=
  <["_facilityType" := PyInt 3]> (<["_freeflowSpeed" := PyInt 30]>
  (<["_effectiveLengthFactor" := PyInt 1]> (<["_responseTimeFactor" := PyInt 1]>
  (<["_numLanes" := PyInt lanes]> (<["_roundAbout" := PyBool false]>
  (<["_level" := PyInt 0]> o)))))).

(** A C library known at the few arguments that the examples below
    evaluate: [acos] at 1, 0, -1 and at -2 / sqrt 13, [pow] at
    (1e200, 2). The values are the correctly rounded ones, which glibc
    returns; every other argument is outside the sample and answered by
    NaN. *)
Definition sampled_libm : Libm.t :=
  Libm.mk
    (fun x =>
       if x =? 1 then 0
       else if x =? 0 then 0x1.921fb54442d18p+0
       else if x =? -1 then 0x1.921fb54442d18p+1
       else if x =? -0x1.1c01aa03be896p-1 then 0x1.145385fa3af72p+1
       else nan)%float
    (fun x y =>
       if (x =? 0x1.4e718d7d7625ap+664) && (y =? 2) then infinity
       else nan)%float.

(** The first of the seven names, in tuple order, that the object lacks. *)
Definition first_missing (o : obj) : option string :=
  find (fun n => match o !! n with None => true | Some _ => false end)
    attr_names.

(** ** Basic facts about the runtime fragment *)

Lemma bind_Ok {A B : Type} (f : A → result B) (a : A) : Ok a ≫= f = f a.
Proof. reflexivity. Qed.

Lemma bind_Raise {A B : Type} (f : A → result B) (e : exn) :
  Raise e ≫= f = Raise e.
Proof. reflexivity. Qed.

Lemma getattr_Some (o : obj) a v : o !! a = Some v → getattr o a = Ok v.
Proof. intros H. unfold getattr. by rewrite H. Qed.

Lemma getattr_None (o : obj) a :
  o !! a = None → getattr o a = Raise (AttributeError a).
Proof. intros H. unfold getattr. by rewrite H. Qed.

Lemma getattr_setattr_ne (o : obj) a b v :
  a ≠ b → getattr (setattr o a v) b = getattr o b.
Proof. intros H. unfold getattr, setattr. by rewrite lookup_insert_ne. Qed.

Lemma getattr_setattr_eq (o : obj) a v : getattr (setattr o a v) a = Ok v.
Proof. unfold getattr, setattr. by rewrite lookup_insert_eq. Qed.

Lemma eqb_refl v : eqb v v = true.
Proof.
  destruct v as [|b|z|s|l|r]; simpl; auto.
  - by destruct b.
  - apply Z.eqb_refl.
  - apply String.eqb_refl.
  - by apply bool_decide_eq_true.
  - apply Pos.eqb_refl.
Qed.

Lemma eqb_sym v w : eqb v w = eqb w v.
Proof.
  destruct v as [|a|a|a|a|a], w as [|b|b|b|b|b]; simpl; auto.
  - by destruct a, b.
  - apply Z.eqb_sym.
  - apply String.eqb_sym.
  - apply bool_decide_ext. split; congruence.
  - apply Pos.eqb_sym.
Qed.

Lemma eqb_PyNode r v : eqb (PyNode r) v = true ↔ v = PyNode r.
Proof.
  destruct v; simpl; try (split; [discriminate | congruence]).
  rewrite Pos.eqb_eq. split; congruence.
Qed.

Lemma tuple_eqb_refl t : tuple_eqb t t = true.
Proof. induction t as [|v t IH]; simpl; [done|]. by rewrite eqb_refl. Qed.

Lemma tuple_eqb_sym t u : tuple_eqb t u = tuple_eqb u t.
Proof.
  revert u. induction t as [|v t IH]; intros [|w u]; simpl; auto.
  by rewrite eqb_sym, IH.
Qed.

(** ** The constructor and the accessors *)

Lemma new_Ok id_ s e label :
  Link.new id_ (PyNode s) (PyNode e) label =
  Ok (<["_endNode" := PyNode e]> (<["_startNode" := PyNode s]>
     (<["_label" := if truthy label then label else Link.DEFAULT_LABEL]>
     (<["_id" := id_]> ∅)))).
Proof. unfold Link.new, Link.__init__, setattr. simpl. by destruct (truthy label). Qed.

Lemma init_new_rejects id_ startNode endNode label :
  (Node.isinstance startNode = false →
   Link.new id_ startNode endNode label =
   Raise (DtaError
     ("Initializing Link with non-Node startNode: " ++ str startNode))) ∧
  (Node.isinstance startNode = true → Node.isinstance endNode = false →
   Link.new id_ startNode endNode label =
   Raise (DtaError
     ("Initializing Link with non-Node endNode: " ++ str endNode))).
Proof.
  unfold Link.new, Link.__init__. split.
  - by intros ->.
  - by intros -> ->.
Qed.

Lemma link_ends_new id_ s e label o :
  Link.new id_ (PyNode s) (PyNode e) label = Ok o → link_ends o s e.
Proof.
  rewrite new_Ok. intros [= <-]. split.
  - rewrite lookup_insert_ne by done. by rewrite lookup_insert_eq.
  - by rewrite lookup_insert_eq.
Qed.

(** Whatever the arguments, an object that the constructor returns has two
    node references as endpoints. *)
Lemma new_Ok_inv id_ startNode endNode label o :
  Link.new id_ startNode endNode label = Ok o →
  ∃ s e, startNode = PyNode s ∧ endNode = PyNode e ∧ link_ends o s e.
Proof.
  intros Hnew.
  destruct (Node.isinstance startNode) eqn:Hs.
  - destruct (Node.isinstance endNode) eqn:He.
    + destruct startNode as [| | | | |s]; try discriminate Hs.
      destruct endNode as [| | | | |e]; try discriminate He.
      exists s, e. eauto using link_ends_new.
    + by rewrite (proj2 (init_new_rejects id_ _ _ label) Hs He) in Hnew.
  - by rewrite (proj1 (init_new_rejects id_ _ endNode label) Hs) in Hnew.
Qed.

Lemma link_ends_setLabel o s e label :
  link_ends o s e → link_ends (Link.setLabel o label) s e.
Proof.
  intros [Hs He]. unfold link_ends, Link.setLabel, setattr.
  by rewrite !lookup_insert_ne.
Qed.

Lemma link_ends_link_1_2 : link_ends link_1_2 1%positive 2%positive.
Proof. by split. Qed.

Lemma new_link_1_2 :
  Link.new (PyInt 12) (PyNode 1%positive) (PyNode 2%positive) PyNone = Ok link_1_2.
Proof. reflexivity. Qed.

(** *** Rejected endpoints *)

(** The state in which [__init__] leaves the object when it reaches the
    endpoint tests: [_id] and the resolved [_label] are stored. *)
Lemma init_rejects_start self id_ startNode endNode label :
  Node.isinstance startNode = false →
  Link.__init__ self id_ startNode endNode label =
  (setattr (setattr self "_id" id_) "_label"
     (if truthy label then label else Link.DEFAULT_LABEL),
   Raise (DtaError
     ("Initializing Link with non-Node startNode: " ++ str startNode))).
Proof.
  intros Hs. unfold Link.__init__. rewrite Hs. simpl.
  by destruct (truthy label).
Qed.

Lemma init_rejects_end self id_ startNode endNode label :
  Node.isinstance startNode = true →
  Node.isinstance endNode = false →
  Link.__init__ self id_ startNode endNode label =
  (setattr (setattr self "_id" id_) "_label"
     (if truthy label then label else Link.DEFAULT_LABEL),
   Raise (DtaError
     ("Initializing Link with non-Node endNode: " ++ str endNode))).
Proof.
  intros Hs He. unfold Link.__init__. rewrite Hs, He. simpl.
  by destruct (truthy label).
Qed.

(** C1, as stated, fails: with a coordinate pair as start node the
    constructor body raises, and by then the object already carries [_id]
    and [_label]. *)
Lemma init_stores_id_before_raising :
  ∃ o, Link.__init__ ∅ (PyInt 7) (PyIntTuple [1; 2]%Z) (PyNode 2%positive) PyNone
       = (o, Raise (DtaError
                "Initializing Link with non-Node startNode: (1, 2)")) ∧
       o !! "_id" = Some (PyInt 7) ∧
       o !! "_label" = Some (PyStr "") ∧
       o ≠ ∅.
Proof.
  eexists. split; [reflexivity|]. repeat split; try reflexivity.
  intros H. by apply (f_equal (λ m : obj, m !! "_id")) in H.
Qed.

(** C1, amended: a start node (or, with a valid start node, an end node)
    that is not a [Node] makes the constructor raise [DtaError] naming that
    endpoint, the start node being tested first. At that point the object
    is the one received with [_id] and the resolved [_label] stored on it
    and nothing else changed: neither endpoint attribute has been assigned.
    The call [Link(...)] yields the error, not an object. *)
Theorem init_rejects_non_node (self : obj) (id_ startNode endNode label : pyval) :
  (Node.isinstance startNode = false →
   ∃ o, Link.__init__ self id_ startNode endNode label =
        (o, Raise (DtaError
          ("Initializing Link with non-Node startNode: " ++ str startNode))) ∧
        o = setattr (setattr self "_id" id_) "_label"
              (if truthy label then label else Link.DEFAULT_LABEL) ∧
        o !! "_id" = Some id_ ∧
        o !! "_label" = Some (if truthy label then label else Link.DEFAULT_LABEL) ∧
        o !! "_startNode" = self !! "_startNode" ∧
        o !! "_endNode" = self !! "_endNode" ∧
        Link.new id_ startNode endNode label =
        Raise (DtaError
          ("Initializing Link with non-Node startNode: " ++ str startNode))) ∧
  (Node.isinstance startNode = true →
   Node.isinstance endNode = false →
   ∃ o, Link.__init__ self id_ startNode endNode label =
        (o, Raise (DtaError
          ("Initializing Link with non-Node endNode: " ++ str endNode))) ∧
        o = setattr (setattr self "_id" id_) "_label"
              (if truthy label then label else Link.DEFAULT_LABEL) ∧
        o !! "_id" = Some id_ ∧
        o !! "_label" = Some (if truthy label then label else Link.DEFAULT_LABEL) ∧
        o !! "_startNode" = self !! "_startNode" ∧
        o !! "_endNode" = self !! "_endNode" ∧
        Link.new id_ startNode endNode label =
        Raise (DtaError
          ("Initializing Link with non-Node endNode: " ++ str endNode))).
Proof.
  assert (∀ o : obj,
    o = setattr (setattr self "_id" id_) "_label"
          (if truthy label then label else Link.DEFAULT_LABEL) →
    o !! "_id" = Some id_ ∧
    o !! "_label" = Some (if truthy label then label else Link.DEFAULT_LABEL) ∧
    o !! "_startNode" = self !! "_startNode" ∧
    o !! "_endNode" = self !! "_endNode") as Hstate.
  { intros o ->. unfold setattr. repeat split.
    - rewrite lookup_insert_ne by done. apply lookup_insert_eq.
    - apply lookup_insert_eq.
    - by rewrite !lookup_insert_ne.
    - by rewrite !lookup_insert_ne. }
  split.
  - intros Hs. eexists. split; [by apply init_rejects_start|].
    split; [reflexivity|].
    destruct (Hstate _ eq_refl) as (H1 & H2 & H3 & H4).
    repeat (split; [assumption|]).
    unfold Link.new. by rewrite init_rejects_start.
  - intros Hs He. eexists. split; [by apply init_rejects_end|].
    split; [reflexivity|].
    destruct (Hstate _ eq_refl) as (H1 & H2 & H3 & H4).
    repeat (split; [assumption|]).
    unfold Link.new. by rewrite init_rejects_end.
Qed.

(** A coordinate pair as start node of a fresh object: the error is the
    start node's, and the id is already on the object. With a node as start
    node and a pair as end node, the error is the end node's. *)
Lemma init_rejects_non_node_witness :
  (∃ o, Link.__init__ ∅ (PyInt 7) (PyIntTuple [1; 2]%Z) PyNone PyNone =
        (o, Raise (DtaError
                "Initializing Link with non-Node startNode: (1, 2)")) ∧
        o !! "_id" = Some (PyInt 7) ∧
        o !! "_label" = Some (PyStr "") ∧
        o !! "_startNode" = None ∧
        o !! "_endNode" = None) ∧
  Link.new (PyInt 7) (PyIntTuple [1; 2]%Z) PyNone PyNone =
    Raise (DtaError "Initializing Link with non-Node startNode: (1, 2)") ∧
  Link.new (PyInt 7) (PyNode 1%positive) (PyIntTuple [3; 4]%Z) (PyStr "a") =
    Raise (DtaError "Initializing Link with non-Node endNode: (3, 4)").
Proof.
  destruct (init_rejects_non_node ∅ (PyInt 7) (PyIntTuple [1; 2]%Z) PyNone PyNone)
    as [H _].
  destruct (H eq_refl) as (o & Hinit & _ & Hid & Hlabel & Hs & He & Hnew).
  split; [|split].
  - exists o. repeat split; assumption.
  - exact Hnew.
  - destruct (init_rejects_non_node ∅ (PyInt 7) (PyNode 1%positive)
                (PyIntTuple [3; 4]%Z) (PyStr "a")) as [_ H'].
    destruct (H' eq_refl eq_refl) as (o' & _ & _ & _ & _ & _ & _ & Hnew').
    exact Hnew'.
Defined.

(** *** Node identifiers *)

Section Identifiers.
Context (nodes : Node.store).

Lemma getStartNode_ends o s e :
  link_ends o s e → Link.getStartNode o = Ok (PyNode s).
Proof. intros [Hs _]. by apply getattr_Some. Qed.

Lemma getEndNode_ends o s e :
  link_ends o s e → Link.getEndNode o = Ok (PyNode e).
Proof. intros [_ He]. by apply getattr_Some. Qed.

(** C9: [getIid] is the pair (id of the start node, id of the end node), in
    that order, and its components are what [getStartNodeId] and
    [getEndNodeId] return. *)
Theorem getIid_start_then_end (o : obj) (s e : node_ref) :
  link_ends o s e →
  Link.getIid nodes o = Ok (Node.id (nodes s), Node.id (nodes e)) ∧
  Link.getStartNodeId nodes o = Ok (Node.id (nodes s)) ∧
  Link.getEndNodeId nodes o = Ok (Node.id (nodes e)).
Proof.
  intros H. unfold Link.getIid, Link.getStartNodeId, Link.getEndNodeId.
  by rewrite (getStartNode_ends _ _ _ H), (getEndNode_ends _ _ _ H).
Qed.

End Identifiers.

(** The pair is not sorted: a link from node 9 to node 4 has key (9, 4). *)
Lemma getIid_start_then_end_witness :
  ∃ o, Link.new PyNone (PyNode 1%positive) (PyNode 2%positive) PyNone = Ok o ∧
       Link.getIid (two_nodes (Node.mk 9 0 0) (Node.mk 4 0 0)) o = Ok (9, 4)%Z ∧
       Link.getStartNodeId (two_nodes (Node.mk 9 0 0) (Node.mk 4 0 0)) o = Ok 9%Z ∧
       Link.getEndNodeId (two_nodes (Node.mk 9 0 0) (Node.mk 4 0 0)) o = Ok 4%Z.
Proof.
  eexists. split; [apply new_Ok|].
  apply (getIid_start_then_end (two_nodes (Node.mk 9 0 0) (Node.mk 4 0 0))
           _ 1%positive 2%positive).
  eapply link_ends_new. apply new_Ok.
Defined.

(** *** Labels *)

(** C10: [setLabel] stores its argument whatever it is, so [getLabel] gives
    it back, also when it is falsy; the other three attributes are not
    touched. The constructor is the only place where a falsy label becomes
    the default. *)
Theorem setLabel_getLabel (o : obj) (label : pyval) :
  Link.getLabel (Link.setLabel o label) = Ok label ∧
  Link.getId (Link.setLabel o label) = Link.getId o ∧
  Link.getStartNode (Link.setLabel o label) = Link.getStartNode o ∧
  Link.getEndNode (Link.setLabel o label) = Link.getEndNode o ∧
  ∀ id_ s e, ∃ o',
    Link.new id_ (PyNode s) (PyNode e) label = Ok o' ∧
    Link.getLabel o' = Ok (if truthy label then label else PyStr "") ∧
    Link.getLabel (Link.setLabel o' label) = Ok label.
Proof.
  unfold Link.getLabel, Link.getId, Link.getStartNode, Link.getEndNode,
    Link.setLabel.
  rewrite getattr_setattr_eq, !getattr_setattr_ne by done.
  repeat split. intros id_ s e. eexists. split; [apply new_Ok|].
  split; [|apply getattr_setattr_eq].
  apply getattr_Some.
  do 2 (rewrite lookup_insert_ne by done). apply lookup_insert_eq.
Qed.

(** *** The other end of a link *)

Section OtherEnd.
Context (nodes : Node.store).

Lemma getOtherEnd_start o s e :
  link_ends o s e → Link.getOtherEnd nodes o (PyNode s) = Ok (PyNode e).
Proof.
  intros [Hs He]. unfold Link.getOtherEnd.
  rewrite (getattr_Some _ _ _ Hs). simpl.
  rewrite Pos.eqb_refl. by apply getattr_Some.
Qed.

(** With a self-loop the first test already succeeds; the node returned is
    the end node, which is then the start node as well. *)
Lemma getOtherEnd_end o s e :
  link_ends o s e → Link.getOtherEnd nodes o (PyNode e) = Ok (PyNode s).
Proof.
  intros [Hs He]. unfold Link.getOtherEnd.
  rewrite (getattr_Some _ _ _ Hs). simpl.
  destruct (Pos.eqb_spec s e) as [->|Hne].
  - by apply getattr_Some.
  - rewrite (getattr_Some _ _ _ He). simpl. by rewrite Pos.eqb_refl.
Qed.

(** C2: what [getOtherEnd] does. The two endpoints are exchanged. For any
    other argument the method raises while it builds the message of the
    [DtaError]: [Link.getId()] is called without a receiver, which is a
    [TypeError], so no [DtaError] is raised. *)
Theorem getOtherEnd_cases (o : obj) (s e : node_ref) (node : pyval) :
  link_ends o s e →
  Link.getOtherEnd nodes o (PyNode s) = Ok (PyNode e) ∧
  Link.getOtherEnd nodes o (PyNode e) = Ok (PyNode s) ∧
  (eqb (PyNode s) node = false → eqb (PyNode e) node = false →
   Link.getOtherEnd nodes o node = Raise TypeError ∧
   ∀ msg, Link.getOtherEnd nodes o node ≠ Raise (DtaError msg)).
Proof.
  intros H. split; [by apply getOtherEnd_start|].
  split; [by apply getOtherEnd_end|].
  intros Hs He. destruct H as [Hs' He'].
  assert (Link.getOtherEnd nodes o node = Raise TypeError) as ->; [|done].
  unfold Link.getOtherEnd.
  rewrite (getattr_Some _ _ _ Hs'), bind_Ok, Hs.
  by rewrite (getattr_Some _ _ _ He'), bind_Ok, He.
Qed.

End OtherEnd.

(** A link from node 1 to node 2, asked for the other end of node 3. *)
Lemma getOtherEnd_cases_witness :
  Link.getOtherEnd (two_nodes (Node.mk 1 0 0) (Node.mk 2 1 0)) link_1_2
    (PyNode 3%positive) = Raise TypeError.
Proof.
  apply (getOtherEnd_cases (two_nodes (Node.mk 1 0 0) (Node.mk 2 1 0))
           link_1_2 1%positive 2%positive (PyNode 3%positive)
           link_ends_link_1_2); reflexivity.
Defined.

(** *** Comparing attributes *)

Lemma attr_names_elem n :
  n ∈ attr_names ↔
  n = "_facilityType" ∨ n = "_freeflowSpeed" ∨ n = "_effectiveLengthFactor" ∨
  n = "_responseTimeFactor" ∨ n = "_numLanes" ∨ n = "_roundAbout" ∨
  n = "_level".
Proof.
  unfold attr_names. rewrite !elem_of_cons, elem_of_nil. tauto.
Qed.

(** [getattrs] reads the seven attributes in order and stops at the first
    one that is missing. *)
Lemma getattrs_total (o : obj) :
  (∃ v1 v2 v3 v4 v5 v6 v7,
     Link.getattrs o = Ok [v1; v2; v3; v4; v5; v6; v7] ∧
     o !! "_facilityType" = Some v1 ∧ o !! "_freeflowSpeed" = Some v2 ∧
     o !! "_effectiveLengthFactor" = Some v3 ∧
     o !! "_responseTimeFactor" = Some v4 ∧ o !! "_numLanes" = Some v5 ∧
     o !! "_roundAbout" = Some v6 ∧ o !! "_level" = Some v7) ∨
  (∃ n, n ∈ attr_names ∧ o !! n = None ∧
        Link.getattrs o = Raise (AttributeError n)).
Proof.
  unfold Link.getattrs, getattr.
  destruct (o !! "_facilityType") as [v1|] eqn:H1;
    [|right; exists "_facilityType"; rewrite attr_names_elem; tauto].
  destruct (o !! "_freeflowSpeed") as [v2|] eqn:H2;
    [|right; exists "_freeflowSpeed"; rewrite attr_names_elem; tauto].
  destruct (o !! "_effectiveLengthFactor") as [v3|] eqn:H3;
    [|right; exists "_effectiveLengthFactor"; rewrite attr_names_elem; tauto].
  destruct (o !! "_responseTimeFactor") as [v4|] eqn:H4;
    [|right; exists "_responseTimeFactor"; rewrite attr_names_elem; tauto].
  destruct (o !! "_numLanes") as [v5|] eqn:H5;
    [|right; exists "_numLanes"; rewrite attr_names_elem; tauto].
  destruct (o !! "_roundAbout") as [v6|] eqn:H6;
    [|right; exists "_roundAbout"; rewrite attr_names_elem; tauto].
  destruct (o !! "_level") as [v7|] eqn:H7;
    [|right; exists "_level"; rewrite attr_names_elem; tauto].
  left. exists v1, v2, v3, v4, v5, v6, v7. tauto.
Qed.

Lemma getattrs_has_attrs (o : obj) :
  has_attrs o →
  ∃ v1 v2 v3 v4 v5 v6 v7,
    Link.getattrs o = Ok [v1; v2; v3; v4; v5; v6; v7] ∧
    o !! "_facilityType" = Some v1 ∧ o !! "_freeflowSpeed" = Some v2 ∧
    o !! "_effectiveLengthFactor" = Some v3 ∧
    o !! "_responseTimeFactor" = Some v4 ∧ o !! "_numLanes" = Some v5 ∧
    o !! "_roundAbout" = Some v6 ∧ o !! "_level" = Some v7.
Proof.
  intros H. destruct (getattrs_total o) as [Hok|(n & Hn & Hnone & _)]; [done|].
  destruct (H n Hn) as [v Hv]. congruence.
Qed.

(** Attributes outside the seven do not matter to [getattrs]. *)
Lemma getattrs_setattr_other (o : obj) k v :
  k ∉ attr_names → Link.getattrs (setattr o k v) = Link.getattrs o.
Proof.
  intros Hk. unfold Link.getattrs.
  rewrite !getattr_setattr_ne; [done|..];
    intros ->; apply Hk; rewrite attr_names_elem; tauto.
Qed.

Lemma base_names_not_attr : Forall (λ k, k ∉ attr_names) base_names.
Proof.
  unfold base_names. repeat constructor;
    rewrite attr_names_elem; intros H; repeat destruct H as [H|H]; discriminate.
Qed.

Lemma has_attrs_road_link lanes o : has_attrs (road_link lanes o).
Proof.
  intros n Hn. apply attr_names_elem in Hn. unfold road_link.
  repeat destruct Hn as [Hn|Hn]; subst n; simplify_map_eq; eauto.
Qed.

Lemma hasSameAttributes_Ok (a b : obj) t u :
  Link.getattrs a = Ok t → Link.getattrs b = Ok u →
  Link.hasSameAttributes a b = Ok (tuple_eqb t u).
Proof.
  intros Ha Hb. unfold Link.hasSameAttributes.
  rewrite Ha, bind_Ok, Hb, bind_Ok. by destruct (tuple_eqb t u).
Qed.

(** C6: on objects that have the seven attributes, [hasSameAttributes] is
    reflexive and symmetric, answers [True] exactly when the seven
    attributes are equal one by one (Python's [==]) and [False] otherwise,
    and is not affected by any other attribute, such as the id, the label
    or the endpoints. *)
Theorem hasSameAttributes_seven (a b : obj) :
  has_attrs a → has_attrs b →
  Link.hasSameAttributes a a = Ok true ∧
  Link.hasSameAttributes a b = Link.hasSameAttributes b a ∧
  (Link.hasSameAttributes a b = Ok true ↔
   ∀ n, n ∈ attr_names →
        ∃ v w, a !! n = Some v ∧ b !! n = Some w ∧ eqb v w = true) ∧
  (Link.hasSameAttributes a b = Ok true ∨
   Link.hasSameAttributes a b = Ok false) ∧
  (∀ k v, k ∉ attr_names →
     Link.hasSameAttributes (setattr a k v) b = Link.hasSameAttributes a b ∧
     Link.hasSameAttributes a (setattr b k v) = Link.hasSameAttributes a b) ∧
  Forall (λ k, k ∉ attr_names) base_names.
Proof.
  intros Ha Hb.
  destruct (getattrs_has_attrs a Ha)
    as (v1 & v2 & v3 & v4 & v5 & v6 & v7 & Hga & A1 & A2 & A3 & A4 & A5 & A6 & A7).
  destruct (getattrs_has_attrs b Hb)
    as (w1 & w2 & w3 & w4 & w5 & w6 & w7 & Hgb & B1 & B2 & B3 & B4 & B5 & B6 & B7).
  rewrite (hasSameAttributes_Ok a a _ _ Hga Hga).
  rewrite (hasSameAttributes_Ok a b _ _ Hga Hgb).
  rewrite (hasSameAttributes_Ok b a _ _ Hgb Hga).
  split; [by rewrite tuple_eqb_refl|].
  split; [by rewrite tuple_eqb_sym|].
  split; [|split; [by destruct (tuple_eqb _ _); auto|split]].
  - split.
    + intros [= H]. simpl in H. rewrite !andb_true_iff in H.
      destruct H as (E1 & E2 & E3 & E4 & E5 & E6 & E7 & _).
      intros n Hn. apply attr_names_elem in Hn.
      repeat destruct Hn as [Hn|Hn]; subst n; eauto.
    + intros H. f_equal. simpl. rewrite !andb_true_iff.
      repeat split;
        match goal with
        | A : a !! ?n = Some ?v |- eqb ?v _ = true =>
            let Hn := fresh in
            assert (n ∈ attr_names) as Hn by (rewrite attr_names_elem; tauto);
            destruct (H n Hn) as (v' & w' & Hv' & Hw' & He);
            congruence
        end.
  - intros k v Hk. unfold Link.hasSameAttributes.
    rewrite !getattrs_setattr_other by done.
    rewrite Hga, bind_Ok, Hgb, bind_Ok. by destruct (tuple_eqb _ _).
  - apply base_names_not_attr.
Qed.

(** Two road links with the same seven attributes and nothing else in
    common, and two that differ in the number of lanes. *)
Lemma hasSameAttributes_seven_witness :
  Link.hasSameAttributes (road_link 2 link_1_2) (road_link 2 ∅) = Ok true ∧
  Link.hasSameAttributes (road_link 2 link_1_2) (road_link 3 link_1_2) = Ok false.
Proof.
  split.
  - destruct (hasSameAttributes_seven (road_link 2 link_1_2) (road_link 2 ∅)
                (has_attrs_road_link _ _) (has_attrs_road_link _ _))
      as (_ & _ & [_ H] & _).
    apply H. intros n Hn. apply attr_names_elem in Hn.
    repeat destruct Hn as [Hn|Hn]; subst n; do 2 eexists;
      (split; [reflexivity|split; reflexivity]).
  - destruct (hasSameAttributes_seven (road_link 2 link_1_2) (road_link 3 link_1_2)
                (has_attrs_road_link _ _) (has_attrs_road_link _ _))
      as (_ & _ & _ & [H|H] & _); [|exact H].
    discriminate H.
Defined.

(** C7: if either operand lacks one of the seven attributes,
    [hasSameAttributes] raises [AttributeError] for one of the seven names
    and returns no boolean. An object made by the base constructor has none
    of them, so the first one read, [_facilityType], is reported, whichever
    side the base link is on. *)
Theorem hasSameAttributes_missing (a b : obj) :
  ((∃ n, n ∈ attr_names ∧ (a !! n = None ∨ b !! n = None)) →
   ∃ n, n ∈ attr_names ∧
        Link.hasSameAttributes a b = Raise (AttributeError n)) ∧
  (∀ id_ s e label o,
     Link.new id_ (PyNode s) (PyNode e) label = Ok o →
     Link.hasSameAttributes o b = Raise (AttributeError "_facilityType") ∧
     (has_attrs a →
      Link.hasSameAttributes a o = Raise (AttributeError "_facilityType"))).
Proof.
  split.
  - intros (n & Hn & Hmiss). unfold Link.hasSameAttributes.
    destruct (getattrs_total a)
      as [(v1 & v2 & v3 & v4 & v5 & v6 & v7 & Hga & A)|(m & Hm & _ & Hga)].
    + rewrite Hga, bind_Ok.
      destruct (getattrs_total b)
        as [(w1 & w2 & w3 & w4 & w5 & w6 & w7 & Hgb & B)|(m & Hm & _ & Hgb)].
      * exfalso. apply attr_names_elem in Hn.
        destruct A as (? & ? & ? & ? & ? & ? & ?), B as (? & ? & ? & ? & ? & ? & ?).
        destruct Hmiss as [Hnone|Hnone];
          repeat destruct Hn as [Hn|Hn]; subst n; congruence.
      * exists m. by rewrite Hgb.
    + exists m. by rewrite Hga.
  - intros id_ s e label o. rewrite new_Ok. intros [= <-].
    unfold Link.hasSameAttributes. split.
    + reflexivity.
    + intros Ha.
      destruct (getattrs_has_attrs a Ha) as (v1 & v2 & v3 & v4 & v5 & v6 & v7 & Hga & _).
      by rewrite Hga.
Qed.

Lemma hasSameAttributes_missing_witness :
  (∃ n, n ∈ attr_names ∧
     Link.hasSameAttributes (road_link 2 link_1_2)
       (delete "_level" (road_link 2 link_1_2)) = Raise (AttributeError n)) ∧
  Link.hasSameAttributes link_1_2 link_1_2 = Raise (AttributeError "_facilityType") ∧
  Link.hasSameAttributes (road_link 2 link_1_2) link_1_2 =
    Raise (AttributeError "_facilityType").
Proof.
  split; [|split].
  - destruct (hasSameAttributes_missing (road_link 2 link_1_2)
                (delete "_level" (road_link 2 link_1_2))) as [H _].
    apply H. exists "_level". split; [rewrite attr_names_elem; tauto|].
    right. reflexivity.
  - destruct (hasSameAttributes_missing link_1_2 link_1_2) as [_ H].
    destruct (H _ _ _ _ _ new_link_1_2) as [H1 _]. exact H1.
  - destruct (hasSameAttributes_missing (road_link 2 link_1_2) link_1_2) as [_ H].
    destruct (H _ _ _ _ _ new_link_1_2) as [_ H2].
    exact (H2 (has_attrs_road_link _ _)).
Defined.

(** ** Lengths and angles *)

Section Geometry.
Local Open Scope float_scope.


Lemma float_zero_not_positive (a : float) : (a =? 0) = true → (0 <? a) = false.
Proof.
  rewrite FloatAxioms.eqb_spec, ltb_spec.
  change (Prim2SF 0) with (S754_zero false).
  destruct (Prim2SF a) as [sg|sg| |sg mx ex]; try destruct sg; cbv; congruence.
Qed.

Lemma float_div_nonzero (a b : float) :
  (b =? 0) = false → float_div a b = Ok (a / b).
Proof. intros Hb. unfold float_div. by rewrite Hb. Qed.

(** [math.sqrt] and [math.acos] raise nothing but [ValueError]. *)
Lemma math_1_raises (f : float → float) (x : float) (err : exn) :
  math_1 f x = Raise err → err = ValueError.
Proof.
  unfold math_1. destruct (is_nan (f x) && negb (is_nan x)); [congruence|].
  destruct (is_infinity (f x) && is_finite x); congruence.
Qed.

(** Once libm's [acos] is known at an argument, so is [math.acos]. *)
Lemma math_acos_at (m : Libm.t) (q r : float) :
  Libm.acos m q = r →
  is_nan r && negb (is_nan q) = false →
  is_infinity r && is_finite q = false →
  math_acos m q = Ok r.
Proof. intros <- H1 H2. unfold math_acos, math_1. by rewrite H1, H2. Qed.

Context (m : Libm.t) (nodes : Node.store) (o : obj) (s e : node_ref).
Context (Hends : link_ends o s e).

Lemma euclideanLength_ends :
  Link.euclideanLength nodes o =
  math_sqrt
    ((Node.x (nodes s) - Node.x (nodes e)) * (Node.x (nodes s) - Node.x (nodes e)) +
     (Node.y (nodes s) - Node.y (nodes e)) * (Node.y (nodes s) - Node.y (nodes e))).
Proof.
  destruct Hends as [Hs He]. unfold Link.euclideanLength.
  by rewrite (getattr_Some _ _ _ Hs), (getattr_Some _ _ _ He).
Qed.

Lemma getEuclideanLengthInMiles_ends :
  Link.getEuclideanLengthInMiles m nodes o =
  (dx2 ← float_pow_2 m (Node.x (nodes e) - Node.x (nodes s));
   dy2 ← float_pow_2 m (Node.y (nodes e) - Node.y (nodes s));
   d ← math_sqrt (dx2 + dy2);
   float_div d 5280).
Proof.
  destruct Hends as [Hs He].
  unfold Link.getEuclideanLengthInMiles, Link.getStartNode, Link.getEndNode.
  by rewrite (getattr_Some _ _ _ Hs), (getattr_Some _ _ _ He).
Qed.

(** The early return: a length that compares equal to 0. *)
Lemma getReferenceAngle_zero (len : float) :
  Link.euclideanLength nodes o = Ok len → (len =? 0) = true →
  Link.getReferenceAngle m nodes o = Ok (PyIntNum 0).
Proof.
  intros Hlen Hz. unfold Link.getReferenceAngle. by rewrite Hlen, bind_Ok, Hz.
Qed.

(** Past the early return the division goes through, and the result is
    decided by [math.acos] and the two comparisons. *)
Lemma getReferenceAngle_nonzero (len : float) :
  Link.euclideanLength nodes o = Ok len → (len =? 0) = false →
  Link.getReferenceAngle m nodes o =
  (angle ← math_acos m ((Node.x (nodes e) - Node.x (nodes s)) / len);
   Ok (PyFloat
         (if (0 <? angle) && (Node.y (nodes s) <? Node.y (nodes e))
          then 2 * math_pi - angle else angle))).
Proof.
  intros Hlen Hnz. unfold Link.getReferenceAngle.
  rewrite Hlen, !bind_Ok, Hnz. destruct Hends as [Hs He].
  rewrite (getattr_Some _ _ _ Hs), (getattr_Some _ _ _ He).
  cbn [mbind result_bind Node.getX Node.getY].
  rewrite float_div_nonzero by done. rewrite bind_Ok.
  destruct (math_acos m _) as [angle|err]; [|done].
  rewrite !bind_Ok. destruct (0 <? angle); [|done].
  by destruct (Node.y (nodes s) <? Node.y (nodes e)).
Qed.

(** The division by the length is never a division by zero. *)
Lemma getReferenceAngle_no_zero_division :
  Link.getReferenceAngle m nodes o ≠ Raise ZeroDivisionError.
Proof.
  destruct (Link.euclideanLength nodes o) as [len|err] eqn:Hlen.
  - destruct (len =? 0) eqn:Hz.
    + by rewrite (getReferenceAngle_zero len Hlen Hz).
    + rewrite (getReferenceAngle_nonzero len Hlen Hz).
      destruct (math_acos m _) as [angle|err] eqn:Hacos; [done|].
      apply math_1_raises in Hacos as ->. done.
  - unfold Link.getReferenceAngle. rewrite Hlen.
    rewrite euclideanLength_ends in Hlen.
    apply math_1_raises in Hlen as ->. done.
Qed.

End Geometry.

Section GeometryClaims.
Local Open Scope float_scope.

(** The unit links of the four compass directions have length 1. *)
Lemma compass_length (u v : float) :
  math_sqrt ((0 - u) * (0 - u) + (0 - v) * (0 - v)) = Ok 1 →
  Link.euclideanLength (two_nodes (Node.mk 1 0 0) (Node.mk 2 u v)) link_1_2 = Ok 1.
Proof.
  intros H. by rewrite (euclideanLength_ends _ _ _ _ link_ends_link_1_2).
Qed.

(** The angle of a link from the origin, once its length and the value of
    [acos] at the ratio are known. *)
Lemma angle_from_origin (m : Libm.t) (u v len q a : float) :
  math_sqrt ((0 - u) * (0 - u) + (0 - v) * (0 - v)) = Ok len →
  (len =? 0) = false →
  (u - 0) / len = q →
  math_acos m q = Ok a →
  Link.getReferenceAngle m (two_nodes (Node.mk 1 0 0) (Node.mk 2 u v)) link_1_2 =
  Ok (PyFloat (if (0 <? a) && (0 <? v) then 2 * math_pi - a else a)).
Proof.
  intros Hlen Hnz Hq Ha.
  rewrite (getReferenceAngle_nonzero m _ _ _ _ link_ends_link_1_2 len);
    [|by rewrite (euclideanLength_ends _ _ _ _ link_ends_link_1_2)|done].
  cbn [two_nodes Node.x Node.y]. by rewrite Hq, Ha, bind_Ok.
Qed.

(** Coordinates of about 1e308 on both sides: the difference, the square
    and the length are infinite, the ratio is NaN, and NaN is what comes
    back. *)
Lemma angle_overflow (m : Libm.t) :
  Libm.acos m nan = nan →
  Link.getReferenceAngle m
    (two_nodes (Node.mk 1 (-0x1.1ccf385ebc8a0p+1023) 0)
               (Node.mk 2 0x1.1ccf385ebc8a0p+1023 0)) link_1_2 =
  Ok (PyFloat nan).
Proof.
  intros Hnan.
  rewrite (getReferenceAngle_nonzero m _ _ _ _ link_ends_link_1_2 infinity);
    [|by rewrite (euclideanLength_ends _ _ _ _ link_ends_link_1_2)|done].
  cbn [two_nodes Node.x Node.y].
  replace ((0x1.1ccf385ebc8a0p+1023 - -0x1.1ccf385ebc8a0p+1023) / infinity)
    with nan by reflexivity.
  by rewrite (math_acos_at m nan nan Hnan).
Qed.

(** Two nodes 1e-160 apart: the square is subnormal, its root is smaller
    than the difference, the ratio exceeds 1 and [math.acos] raises. *)
Lemma angle_underflow (m : Libm.t) :
  is_nan (Libm.acos m 0x1.00005d63be25dp+0) = true →
  Link.getReferenceAngle m
    (two_nodes (Node.mk 1 0 0) (Node.mk 2 0x1.67e9c127b6e74p-532 0)) link_1_2 =
  Raise ValueError.
Proof.
  intros Hnan.
  rewrite (getReferenceAngle_nonzero m _ _ _ _ link_ends_link_1_2
             0x1.67e93ddbc0e73p-532);
    [|by rewrite (euclideanLength_ends _ _ _ _ link_ends_link_1_2)|done].
  cbn [two_nodes Node.x Node.y].
  replace ((0x1.67e9c127b6e74p-532 - 0) / 0x1.67e93ddbc0e73p-532)
    with 0x1.00005d63be25dp+0 by reflexivity.
  unfold math_acos, math_1. by rewrite Hnan.
Qed.

Lemma compass_angles (m : Libm.t) :
  Libm.acos m 1 = 0 →
  Libm.acos m 0 = math_pi / 2 →
  Libm.acos m (-1) = math_pi →
  Link.getReferenceAngle m (two_nodes (Node.mk 1 0 0) (Node.mk 2 1 0)) link_1_2
    = Ok (PyFloat 0) ∧
  Link.getReferenceAngle m (two_nodes (Node.mk 1 0 0) (Node.mk 2 0 1)) link_1_2
    = Ok (PyFloat (3 * math_pi / 2)) ∧
  Link.getReferenceAngle m (two_nodes (Node.mk 1 0 0) (Node.mk 2 0 (-1))) link_1_2
    = Ok (PyFloat (math_pi / 2)) ∧
  Link.getReferenceAngle m (two_nodes (Node.mk 1 0 0) (Node.mk 2 (-1) 0)) link_1_2
    = Ok (PyFloat math_pi).
Proof.
  intros H1 H0 Hm1. repeat split.
  - by rewrite (angle_from_origin m 1 0 1 1 0);
      [| | | |apply (math_acos_at m 1 0 H1)].
  - by rewrite (angle_from_origin m 0 1 1 0 (math_pi / 2));
      [| | | |apply (math_acos_at m 0 _ H0)].
  - by rewrite (angle_from_origin m 0 (-1) 1 0 (math_pi / 2));
      [| | | |apply (math_acos_at m 0 _ H0)].
  - by rewrite (angle_from_origin m (-1) 0 1 (-1) math_pi);
      [| | | |apply (math_acos_at m (-1) _ Hm1)].
Qed.

(** C3: what [getReferenceAngle] does on a link that passes the early
    return. The unsigned angle is [math.acos (dx / length)]; the result is
    [2.0 * math.pi] minus that angle exactly when the angle is greater than
    0 and the end node has the larger y, and the angle itself otherwise. With
    libm's [acos] exact at 1, 0 and -1 the four compass links give 0,
    3 pi / 2, pi / 2 and pi. The unsigned angle is not always in [0, pi]:
    with coordinates near 1e308 on both sides the ratio is NaN, and so is
    the result. *)
Theorem getReferenceAngle_clockwise
  (m : Libm.t) (nodes : Node.store) (o : obj) (s e : node_ref) (len angle : float) :
  link_ends o s e →
  Link.euclideanLength nodes o = Ok len →
  (len =? 0) = false →
  math_acos m ((Node.x (nodes e) - Node.x (nodes s)) / len) = Ok angle →
  Link.getReferenceAngle m nodes o =
    Ok (PyFloat
          (if (0 <? angle) && (Node.y (nodes s) <? Node.y (nodes e))
           then 2 * math_pi - angle else angle)) ∧
  (Libm.acos m 1 = 0 →
   Libm.acos m 0 = math_pi / 2 →
   Libm.acos m (-1) = math_pi →
   Link.getReferenceAngle m (two_nodes (Node.mk 1 0 0) (Node.mk 2 1 0)) link_1_2
     = Ok (PyFloat 0) ∧
   Link.getReferenceAngle m (two_nodes (Node.mk 1 0 0) (Node.mk 2 0 1)) link_1_2
     = Ok (PyFloat (3 * math_pi / 2)) ∧
   Link.getReferenceAngle m (two_nodes (Node.mk 1 0 0) (Node.mk 2 0 (-1))) link_1_2
     = Ok (PyFloat (math_pi / 2)) ∧
   Link.getReferenceAngle m (two_nodes (Node.mk 1 0 0) (Node.mk 2 (-1) 0)) link_1_2
     = Ok (PyFloat math_pi)) ∧
  (Libm.acos m nan = nan →
   Link.getReferenceAngle m
     (two_nodes (Node.mk 1 (-0x1.1ccf385ebc8a0p+1023) 0)
                (Node.mk 2 0x1.1ccf385ebc8a0p+1023 0)) link_1_2 =
   Ok (PyFloat nan)).
Proof.
  intros Hends Hlen Hnz Hacos. split; [|split].
  - by rewrite (getReferenceAngle_nonzero m nodes o s e Hends len Hlen Hnz),
      Hacos, bind_Ok.
  - apply compass_angles.
  - apply angle_overflow.
Qed.

(** A link from (0, 0) to (-2, 3): the end node is above, the angle is
    reflected. *)
Lemma getReferenceAngle_clockwise_witness :
  Link.getReferenceAngle sampled_libm
    (two_nodes (Node.mk 1 0 0) (Node.mk 2 (-2) 3)) link_1_2 =
  Ok (PyFloat 0x1.07f5f2472555fp+2) ∧
  Link.getReferenceAngle sampled_libm
    (two_nodes (Node.mk 1 0 0) (Node.mk 2 0 1)) link_1_2 =
  Ok (PyFloat 0x1.2d97c7f3321d2p+2) ∧
  Link.getReferenceAngle sampled_libm
    (two_nodes (Node.mk 1 (-0x1.1ccf385ebc8a0p+1023) 0)
               (Node.mk 2 0x1.1ccf385ebc8a0p+1023 0)) link_1_2 =
  Ok (PyFloat nan).
Proof.
  destruct (getReferenceAngle_clockwise sampled_libm
              (two_nodes (Node.mk 1 0 0) (Node.mk 2 (-2) 3)) link_1_2
              1%positive 2%positive 0x1.cd82b446159f3p+1 0x1.145385fa3af72p+1
              link_ends_link_1_2 eq_refl eq_refl eq_refl)
    as (Hrule & Hcompass & Hnan).
  split; [exact Hrule|]. split; [|exact (Hnan eq_refl)].
  destruct (Hcompass eq_refl eq_refl eq_refl) as (_ & Hnorth & _).
  exact Hnorth.
Defined.

(** C4: the parts of the range claim that hold of every link. A length
    that compares equal to 0 gives 0 before any division; the division by
    the length never raises; an unsigned angle equal to 0 is returned as it
    is, never as [2.0 * math.pi]. The range itself fails at the extremes:
    coordinates near 1e308 on both sides give NaN, and two nodes 1e-160
    apart make [math.acos] raise [ValueError]. *)
Theorem getReferenceAngle_range
  (m : Libm.t) (nodes : Node.store) (o : obj) (s e : node_ref) :
  link_ends o s e →
  (∀ len, Link.euclideanLength nodes o = Ok len → (len =? 0) = true →
          Link.getReferenceAngle m nodes o = Ok (PyIntNum 0)) ∧
  Link.getReferenceAngle m nodes o ≠ Raise ZeroDivisionError ∧
  (∀ len angle,
     Link.euclideanLength nodes o = Ok len → (len =? 0) = false →
     math_acos m ((Node.x (nodes e) - Node.x (nodes s)) / len) = Ok angle →
     (angle =? 0) = true →
     Link.getReferenceAngle m nodes o = Ok (PyFloat angle)) ∧
  (Libm.acos m nan = nan →
   Link.getReferenceAngle m
     (two_nodes (Node.mk 1 (-0x1.1ccf385ebc8a0p+1023) 0)
                (Node.mk 2 0x1.1ccf385ebc8a0p+1023 0)) link_1_2 =
   Ok (PyFloat nan)) ∧
  (is_nan (Libm.acos m 0x1.00005d63be25dp+0) = true →
   Link.getReferenceAngle m
     (two_nodes (Node.mk 1 0 0) (Node.mk 2 0x1.67e9c127b6e74p-532 0)) link_1_2 =
   Raise ValueError).
Proof.
  intros Hends. split; [|split; [|split; [|split]]].
  - intros len. apply (getReferenceAngle_zero m nodes o).
  - by apply (getReferenceAngle_no_zero_division m nodes o s e).
  - intros len angle Hlen Hnz Hacos Hzero.
    rewrite (getReferenceAngle_nonzero m nodes o s e Hends len Hlen Hnz),
      Hacos, bind_Ok.
    by rewrite (float_zero_not_positive angle Hzero).
  - apply angle_overflow.
  - apply angle_underflow.
Qed.

(** Two nodes at (7, 7): the early return. Then the two extreme links. *)
Lemma getReferenceAngle_range_witness :
  Link.getReferenceAngle sampled_libm
    (two_nodes (Node.mk 1 7 7) (Node.mk 2 7 7)) link_1_2 = Ok (PyIntNum 0) ∧
  Link.getReferenceAngle sampled_libm
    (two_nodes (Node.mk 1 (-0x1.1ccf385ebc8a0p+1023) 0)
               (Node.mk 2 0x1.1ccf385ebc8a0p+1023 0)) link_1_2 =
  Ok (PyFloat nan) ∧
  Link.getReferenceAngle sampled_libm
    (two_nodes (Node.mk 1 0 0) (Node.mk 2 0x1.67e9c127b6e74p-532 0)) link_1_2 =
  Raise ValueError.
Proof.
  destruct (getReferenceAngle_range sampled_libm
              (two_nodes (Node.mk 1 7 7) (Node.mk 2 7 7)) link_1_2
              1%positive 2%positive link_ends_link_1_2)
    as (Hzero & _ & _ & Hnan & Hraise).
  split; [exact (Hzero 0 eq_refl eq_refl)|].
  split; [exact (Hnan eq_refl)|exact (Hraise eq_refl)].
Defined.


(** [**] on a positive finite float other than 1.0 is libm's [pow] with the
    overflow test. *)
Lemma float_pow_2_libm (m : Libm.t) (x : float) :
  is_nan x = false → is_infinity x = false →
  (x =? 0) = false → (x <? 0) = false → (x =? 1) = false →
  float_pow_2 m x =
  if is_infinity (Libm.pow m x 2) then Raise OverflowError
  else Ok (Libm.pow m x 2).
Proof. intros H1 H2 H3 H4 H5. unfold float_pow_2. by rewrite H1, H2, H3, H4, H5. Qed.

(** The same for every C library whose [pow] overflows at (1e200, 2). *)
Lemma miles_overflow (m : Libm.t) :
  is_infinity (Libm.pow m 0x1.4e718d7d7625ap+664 2) = true →
  Link.getEuclideanLengthInMiles m
    (two_nodes (Node.mk 1 0 0) (Node.mk 2 0x1.4e718d7d7625ap+664 0)) link_1_2
  = Raise OverflowError.
Proof.
  intros Hinf.
  rewrite (getEuclideanLengthInMiles_ends m _ _ _ _ link_ends_link_1_2).
  cbn [two_nodes Node.x Node.y].
  replace (0x1.4e718d7d7625ap+664 - 0) with 0x1.4e718d7d7625ap+664 by reflexivity.
  rewrite (float_pow_2_libm m 0x1.4e718d7d7625ap+664) by reflexivity.
  by rewrite Hinf.
Qed.



Lemma degrees_of_angle (m : Libm.t) (nodes : Node.store) (o : obj) (a : float) :
  Link.getReferenceAngle m nodes o = Ok (PyFloat a) →
  Link.getReferenceAngleInDegrees m nodes o = Ok (a / math_pi * 180).
Proof.
  intros Ha. unfold Link.getReferenceAngleInDegrees. by rewrite Ha.
Qed.

(** C8, as stated, fails: for the link from (0, 0) to (-2, 3) the method
    returns [angle / math.pi * 180.0], which is 236.30993247402017, while
    [angle * 180 / math.pi] is 236.3099324740202, one unit in the last
    place away. *)
Lemma degrees_differ_from_times_180_over_pi :
  Link.getReferenceAngle sampled_libm
    (two_nodes (Node.mk 1 0 0) (Node.mk 2 (-2) 3)) link_1_2 =
  Ok (PyFloat 0x1.07f5f2472555fp+2) ∧
  Link.getReferenceAngleInDegrees sampled_libm
    (two_nodes (Node.mk 1 0 0) (Node.mk 2 (-2) 3)) link_1_2 =
  Ok 0x1.d89eaf781fc52p+7 ∧
  0x1.07f5f2472555fp+2 * 180 / math_pi = 0x1.d89eaf781fc53p+7 ∧
  (0x1.d89eaf781fc52p+7 =? 0x1.d89eaf781fc53p+7) = false.
Proof. repeat split; reflexivity. Qed.

(** C8, amended: the angle in degrees is [getReferenceAngle() / math.pi *
    180.0], evaluated in this order in float arithmetic; it is 0.0 when
    [getReferenceAngle] returns 0, an error of [getReferenceAngle] is passed
    on, and with libm's [acos] exact at 1, 0 and -1 the four compass links
    give 0, 270, 90 and 180. *)
Theorem degrees_of_reference_angle (m : Libm.t) (nodes : Node.store) (o : obj) :
  (∀ a, Link.getReferenceAngle m nodes o = Ok (PyFloat a) →
        Link.getReferenceAngleInDegrees m nodes o = Ok (a / math_pi * 180)) ∧
  (Link.getReferenceAngle m nodes o = Ok (PyIntNum 0) →
   Link.getReferenceAngleInDegrees m nodes o = Ok 0) ∧
  (∀ err, Link.getReferenceAngle m nodes o = Raise err →
          Link.getReferenceAngleInDegrees m nodes o = Raise err) ∧
  (Libm.acos m 1 = 0 →
   Libm.acos m 0 = math_pi / 2 →
   Libm.acos m (-1) = math_pi →
   Link.getReferenceAngleInDegrees m
     (two_nodes (Node.mk 1 0 0) (Node.mk 2 1 0)) link_1_2 = Ok 0 ∧
   Link.getReferenceAngleInDegrees m
     (two_nodes (Node.mk 1 0 0) (Node.mk 2 0 1)) link_1_2 = Ok 270 ∧
   Link.getReferenceAngleInDegrees m
     (two_nodes (Node.mk 1 0 0) (Node.mk 2 0 (-1))) link_1_2 = Ok 90 ∧
   Link.getReferenceAngleInDegrees m
     (two_nodes (Node.mk 1 0 0) (Node.mk 2 (-1) 0)) link_1_2 = Ok 180).
Proof.
  split; [apply degrees_of_angle|]. split; [|split].
  - intros H. unfold Link.getReferenceAngleInDegrees. by rewrite H.
  - intros err H. unfold Link.getReferenceAngleInDegrees. by rewrite H.
  - intros H1 H0 Hm1.
    destruct (compass_angles m H1 H0 Hm1) as (He & Hn & Hs & Hw).
    by rewrite (degrees_of_angle _ _ _ _ He), (degrees_of_angle _ _ _ _ Hn),
      (degrees_of_angle _ _ _ _ Hs), (degrees_of_angle _ _ _ _ Hw).
Qed.

Lemma degrees_of_reference_angle_witness :
  Link.getReferenceAngleInDegrees sampled_libm
    (two_nodes (Node.mk 1 7 7) (Node.mk 2 7 7)) link_1_2 = Ok 0 ∧
  Link.getReferenceAngleInDegrees sampled_libm
    (two_nodes (Node.mk 1 0 0) (Node.mk 2 0 1)) link_1_2 = Ok 270.
Proof.
  split.
  - destruct (degrees_of_reference_angle sampled_libm
                (two_nodes (Node.mk 1 7 7) (Node.mk 2 7 7)) link_1_2)
      as (_ & H & _).
    exact (H eq_refl).
  - destruct (degrees_of_reference_angle sampled_libm
                (two_nodes (Node.mk 1 7 7) (Node.mk 2 7 7)) link_1_2)
      as (_ & _ & _ & H).
    destruct (H eq_refl eq_refl eq_refl) as (_ & Hnorth & _). exact Hnorth.
Defined.

End GeometryClaims.

(** ** Further properties of the constructor and the accessors *)

(** The constructor succeeds exactly on two node arguments, and the
    accessors then give back what was passed, the label after the default
    rule. *)
Theorem new_then_accessors (id_ startNode endNode label : pyval) :
  (Node.isinstance startNode = true → Node.isinstance endNode = true →
   ∃ o, Link.new id_ startNode endNode label = Ok o ∧
        Link.getId o = Ok id_ ∧
        Link.getStartNode o = Ok startNode ∧
        Link.getEndNode o = Ok endNode ∧
        Link.getLabel o =
          Ok (if truthy label then label else Link.DEFAULT_LABEL)) ∧
  (∀ o, Link.new id_ startNode endNode label = Ok o →
        Node.isinstance startNode = true ∧ Node.isinstance endNode = true).
Proof.
  split.
  - intros Hs He.
    destruct startNode as [| | | | |s]; try discriminate Hs.
    destruct endNode as [| | | | |e]; try discriminate He.
    eexists. split; [apply new_Ok|].
    unfold Link.getId, Link.getStartNode, Link.getEndNode, Link.getLabel.
    repeat split; apply getattr_Some; by simplify_map_eq.
  - intros o Hnew.
    destruct (new_Ok_inv _ _ _ _ _ Hnew) as (s & e & -> & -> & _). done.
Qed.

Lemma new_then_accessors_witness :
  ∃ o, Link.new (PyInt 5) (PyNode 3%positive) (PyNode 3%positive) (PyStr "Main St")
       = Ok o ∧
       Link.getId o = Ok (PyInt 5) ∧
       Link.getStartNode o = Ok (PyNode 3%positive) ∧
       Link.getEndNode o = Ok (PyNode 3%positive) ∧
       Link.getLabel o = Ok (PyStr "Main St").
Proof.
  destruct (new_then_accessors (PyInt 5) (PyNode 3%positive) (PyNode 3%positive)
              (PyStr "Main St")) as [H _].
  exact (H eq_refl eq_refl).
Defined.

(** [setLabel] keeps the last label only, and no method other than
    [getLabel] can tell that it was called. *)
Theorem setLabel_frame
  (m : Libm.t) (nodes : Node.store) (o other : obj) (l1 l2 node : pyval) :
  Link.setLabel (Link.setLabel o l1) l2 = Link.setLabel o l2 ∧
  Link.getIid nodes (Link.setLabel o l1) = Link.getIid nodes o ∧
  Link.getStartNodeId nodes (Link.setLabel o l1) = Link.getStartNodeId nodes o ∧
  Link.getEndNodeId nodes (Link.setLabel o l1) = Link.getEndNodeId nodes o ∧
  Link.getOtherEnd nodes (Link.setLabel o l1) node = Link.getOtherEnd nodes o node ∧
  Link.euclideanLength nodes (Link.setLabel o l1) = Link.euclideanLength nodes o ∧
  Link.getEuclideanLengthInMiles m nodes (Link.setLabel o l1) =
    Link.getEuclideanLengthInMiles m nodes o ∧
  Link.getReferenceAngle m nodes (Link.setLabel o l1) =
    Link.getReferenceAngle m nodes o ∧
  Link.getReferenceAngleInDegrees m nodes (Link.setLabel o l1) =
    Link.getReferenceAngleInDegrees m nodes o ∧
  Link.hasSameAttributes (Link.setLabel o l1) other =
    Link.hasSameAttributes o other ∧
  Link.hasSameAttributes other (Link.setLabel o l1) =
    Link.hasSameAttributes other o.
Proof.
  assert (Link.euclideanLength nodes (Link.setLabel o l1) =
          Link.euclideanLength nodes o) as Hlen.
  { unfold Link.euclideanLength, Link.setLabel.
    by rewrite !getattr_setattr_ne by done. }
  assert (Link.getReferenceAngle m nodes (Link.setLabel o l1) =
          Link.getReferenceAngle m nodes o) as Hangle.
  { unfold Link.getReferenceAngle. rewrite Hlen. unfold Link.setLabel.
    by rewrite !getattr_setattr_ne by done. }
  assert ("_label" ∉ attr_names) as Hlabel.
  { rewrite attr_names_elem. intros H. repeat destruct H as [H|H]; discriminate. }
  split; [apply insert_insert_eq|].
  unfold Link.getReferenceAngleInDegrees. rewrite Hlen, Hangle.
  unfold Link.hasSameAttributes, Link.getIid, Link.getStartNodeId,
    Link.getEndNodeId, Link.getOtherEnd, Link.getEuclideanLengthInMiles,
    Link.getStartNode, Link.getEndNode, Link.setLabel.
  rewrite !getattrs_setattr_other by done.
  by rewrite !getattr_setattr_ne by done.
Qed.

(** *** [getOtherEnd] on the endpoints *)

(** [getOtherEnd] returns a node only when it is handed one of the two
    endpoints, what it returns is an endpoint, and asking twice leads back
    to the node asked about first. *)
Theorem getOtherEnd_involution
  (nodes : Node.store) (o : obj) (s e : node_ref) :
  link_ends o s e →
  (Link.getOtherEnd nodes o (PyNode s) ≫= Link.getOtherEnd nodes o
     = Ok (PyNode s)) ∧
  (Link.getOtherEnd nodes o (PyNode e) ≫= Link.getOtherEnd nodes o
     = Ok (PyNode e)) ∧
  (∀ node v, Link.getOtherEnd nodes o node = Ok v →
     (node = PyNode s ∧ v = PyNode e) ∨ (node = PyNode e ∧ v = PyNode s)).
Proof.
  intros Hends. split; [|split].
  - by rewrite (getOtherEnd_start nodes o s e Hends), bind_Ok,
      (getOtherEnd_end nodes o s e Hends).
  - by rewrite (getOtherEnd_end nodes o s e Hends), bind_Ok,
      (getOtherEnd_start nodes o s e Hends).
  - intros node v Hv. destruct Hends as [Hs He]. unfold Link.getOtherEnd in Hv.
    rewrite (getattr_Some _ _ _ Hs), bind_Ok in Hv.
    destruct (eqb (PyNode s) node) eqn:E1.
    + apply eqb_PyNode in E1 as ->. left. split; [done|].
      rewrite (getattr_Some _ _ _ He) in Hv. congruence.
    + rewrite (getattr_Some _ _ _ He), bind_Ok in Hv.
      destruct (eqb (PyNode e) node) eqn:E2; [|discriminate Hv].
      apply eqb_PyNode in E2 as ->. right. split; [done|]. congruence.
Qed.

Lemma getOtherEnd_involution_witness :
  Link.getOtherEnd (two_nodes (Node.mk 1 0 0) (Node.mk 2 1 0)) link_1_2
    (PyNode 1%positive)
  ≫= Link.getOtherEnd (two_nodes (Node.mk 1 0 0) (Node.mk 2 1 0)) link_1_2
  = Ok (PyNode 1%positive).
Proof.
  destruct (getOtherEnd_involution (two_nodes (Node.mk 1 0 0) (Node.mk 2 1 0))
              link_1_2 1%positive 2%positive link_ends_link_1_2) as [H _].
  exact H.
Defined.

(** *** More on [hasSameAttributes] *)

Lemma eqb_trans u v w : eqb u v = true → eqb v w = true → eqb u w = true.
Proof.
  destruct u as [|a|a|a|a|a], v as [|b|b|b|b|b], w as [|c|c|c|c|c]; simpl;
    try discriminate; try done;
    rewrite ?Bool.eqb_true_iff, ?Z.eqb_eq, ?String.eqb_eq, ?Pos.eqb_eq,
      ?bool_decide_eq_true; try congruence;
    intros H1 H2; destruct a, c; simpl in *; congruence.
Qed.

Lemma tuple_eqb_trans t u w :
  tuple_eqb t u = true → tuple_eqb u w = true → tuple_eqb t w = true.
Proof.
  revert u w. induction t as [|a t IH]; intros [|b u] [|c w]; simpl;
    try discriminate; try done.
  rewrite !andb_true_iff. intros [H1 H2] [H3 H4]. eauto using eqb_trans.
Qed.

(** A boolean answer means that both tuples could be read. *)
Lemma hasSameAttributes_Ok_inv (a b : obj) (r : bool) :
  Link.hasSameAttributes a b = Ok r →
  ∃ t u, Link.getattrs a = Ok t ∧ Link.getattrs b = Ok u ∧ r = tuple_eqb t u.
Proof.
  unfold Link.hasSameAttributes.
  destruct (Link.getattrs a) as [t|]; [|discriminate].
  destruct (Link.getattrs b) as [u|]; [|discriminate].
  rewrite !bind_Ok. intros H. exists t, u.
  repeat split. by destruct (tuple_eqb t u); injection H.
Qed.

(** [hasSameAttributes] is transitive: with the reflexivity and symmetry
    of C6 it is an equivalence on the objects that carry the seven
    attributes. *)
Theorem hasSameAttributes_trans (a b c : obj) :
  Link.hasSameAttributes a b = Ok true →
  Link.hasSameAttributes b c = Ok true →
  Link.hasSameAttributes a c = Ok true.
Proof.
  intros Hab Hbc.
  destruct (hasSameAttributes_Ok_inv _ _ _ Hab) as (t & u & Ht & Hu & Htu).
  destruct (hasSameAttributes_Ok_inv _ _ _ Hbc) as (u' & w & Hu' & Hw & Huw).
  rewrite Hu in Hu'. injection Hu' as <-.
  rewrite (hasSameAttributes_Ok a c t w Ht Hw). f_equal.
  eauto using tuple_eqb_trans.
Qed.

(** Lanes given as 1, as [True] and again as 1: equal by value. *)
Lemma hasSameAttributes_trans_witness :
  Link.hasSameAttributes
    (road_link 1 ∅) (<["_numLanes" := PyInt 1]> (road_link 1 link_1_2)) = Ok true.
Proof.
  apply (hasSameAttributes_trans (road_link 1 ∅)
           (<["_numLanes" := PyBool true]> (road_link 7 ∅))
           (<["_numLanes" := PyInt 1]> (road_link 1 link_1_2)));
    vm_compute; reflexivity.
Defined.

Lemma getattrs_first_missing (o : obj) :
  match first_missing o with
  | Some n => Link.getattrs o = Raise (AttributeError n)
  | None => ∃ t, Link.getattrs o = Ok t
  end.
Proof.
  unfold first_missing, Link.getattrs, getattr, attr_names. simpl.
  destruct (o !! "_facilityType"); [|done].
  destruct (o !! "_freeflowSpeed"); [|done].
  destruct (o !! "_effectiveLengthFactor"); [|done].
  destruct (o !! "_responseTimeFactor"); [|done].
  destruct (o !! "_numLanes"); [|done].
  destruct (o !! "_roundAbout"); [|done].
  destruct (o !! "_level"); [|done].
  eexists. reflexivity.
Qed.

(** Which attribute the [AttributeError] names: the receiver's tuple is
    read first, so its first missing attribute is reported whatever the
    other object looks like; only for a complete receiver is the first
    missing attribute of the other object reported; with both complete the
    answer is a boolean. *)
Theorem hasSameAttributes_error_order (a b : obj) (n : string) :
  (first_missing a = Some n →
   Link.hasSameAttributes a b = Raise (AttributeError n)) ∧
  (first_missing a = None → first_missing b = Some n →
   Link.hasSameAttributes a b = Raise (AttributeError n)) ∧
  (first_missing a = None → first_missing b = None →
   ∃ r, Link.hasSameAttributes a b = Ok r).
Proof.
  pose proof (getattrs_first_missing a) as Ha.
  pose proof (getattrs_first_missing b) as Hb.
  unfold Link.hasSameAttributes. split; [|split].
  - intros E. rewrite E in Ha. by rewrite Ha.
  - intros Ea Eb. rewrite Ea in Ha. rewrite Eb in Hb.
    destruct Ha as [t ->]. by rewrite bind_Ok, Hb.
  - intros Ea Eb. rewrite Ea in Ha. rewrite Eb in Hb.
    destruct Ha as [t ->], Hb as [u ->]. rewrite !bind_Ok.
    destruct (tuple_eqb t u); eauto.
Qed.

(** A receiver without [_numLanes] against a base link, and the converse. *)
Lemma hasSameAttributes_error_order_witness :
  Link.hasSameAttributes (delete "_numLanes" (road_link 2 link_1_2)) link_1_2
    = Raise (AttributeError "_numLanes") ∧
  Link.hasSameAttributes (road_link 2 link_1_2)
    (delete "_roundAbout" (delete "_level" (road_link 2 link_1_2)))
    = Raise (AttributeError "_roundAbout").
Proof.
  split.
  - destruct (hasSameAttributes_error_order
                (delete "_numLanes" (road_link 2 link_1_2)) link_1_2 "_numLanes")
      as [H _].
    apply H. reflexivity.
  - destruct (hasSameAttributes_error_order (road_link 2 link_1_2)
                (delete "_roundAbout" (delete "_level" (road_link 2 link_1_2)))
                "_roundAbout") as (_ & H & _).
    apply H; reflexivity.
Defined.
